(** * next-form-project: the FileInput widget and the import-form schema

    A shallow embedding of the two units of the repository:

    - [FileInput] (the React component with click and drag-and-drop file
      selection): its hook state, the Formik value set it writes to and the
      [setInterval] timers of [simulateUpload] are one explicit state record;
      every handler is a pure transition on it.
    - [FormSchemas] ([src/components/Form/formSchemas.ts]): [initialValues]
      and the [validationSchema] declaration. *)

From Stdlib Require Import ZArith QArith Qround Lia.
From stdpp Require Import gmap strings list fin_maps.

Local Open Scope string_scope.
Local Open Scope Z_scope.

(** ** Browser and JavaScript data *)

(** A browser [File] handle: the component reads [name] and [size] only. *)
Record File := { file_name : string; file_size : N }.

(** The JavaScript values that occur as Formik field values. *)
Inductive value :=
| VUndefined
| VNull
| VString (s : string)
| VBool (b : bool)
| VFile (f : File).

(** [event.target.files] and [event.dataTransfer.files]: a [FileList], or
    [null].  A [FileList] is an object, hence truthy even when empty. *)
Definition FileList := option (list File).

(** [files[0]]: [undefined] when the list is empty. *)
Definition item0 (l : list File) : option File := head l.

(** [Math.round]: the nearest integer, a tie going towards +infinity.  The
    argument is exact here: a byte count below 2^53 divided by 1024 is a
    binary64 number without rounding. *)
Definition Math_round (x : Q) : Z := Qfloor (x + (1 # 2))%Q.

(** ** The FileInput component *)

(** The [fileInfo] hook state: [{ name: string; size: number }]. *)
Module FileInfo.
Record t := { name : string; size : N }.
End FileInfo.

Record FileInputProps := { label : string; required : bool; name : string }.

Module FileInput.

(** Hook state of one component instance, the Formik value set shared with
    the enclosing form, and the live interval timers.  A timer is its handle
    together with the [progress] variable captured by its callback. *)
Record State := {
  dragging : bool;
  fileInfo : option FileInfo.t;
  uploadProgress : Z;
  values : gmap string value;
  intervals : gmap nat Z;
  nextInterval : nat
}.

Definition setDragging (b : bool) (st : State) : State :=
  {| dragging := b; fileInfo := fileInfo st;
     uploadProgress := uploadProgress st; values := values st;
     intervals := intervals st; nextInterval := nextInterval st |}.

Definition setFileInfo (fi : option FileInfo.t) (st : State) : State :=
  {| dragging := dragging st; fileInfo := fi;
     uploadProgress := uploadProgress st; values := values st;
     intervals := intervals st; nextInterval := nextInterval st |}.

Definition setUploadProgress (p : Z) (st : State) : State :=
  {| dragging := dragging st; fileInfo := fileInfo st;
     uploadProgress := p; values := values st;
     intervals := intervals st; nextInterval := nextInterval st |}.

(** Formik's [setFieldValue(field, v)]. *)
Definition setFieldValue (field : string) (v : value) (st : State) : State :=
  {| dragging := dragging st; fileInfo := fileInfo st;
     uploadProgress := uploadProgress st; values := <[field := v]> (values st);
     intervals := intervals st; nextInterval := nextInterval st |}.

(** [setInterval(callback, 20)] with [let progress = p] in the closure: a
    fresh handle is allocated. *)
Definition setInterval (p : Z) (st : State) : State :=
  {| dragging := dragging st; fileInfo := fileInfo st;
     uploadProgress := uploadProgress st; values := values st;
     intervals := <[nextInterval st := p]> (intervals st);
     nextInterval := S (nextInterval st) |}.

Definition setProgressVar (interval : nat) (p : Z) (st : State) : State :=
  {| dragging := dragging st; fileInfo := fileInfo st;
     uploadProgress := uploadProgress st; values := values st;
     intervals := <[interval := p]> (intervals st);
     nextInterval := nextInterval st |}.

Definition clearInterval (interval : nat) (st : State) : State :=
  {| dragging := dragging st; fileInfo := fileInfo st;
     uploadProgress := uploadProgress st; values := values st;
     intervals := delete interval (intervals st);
     nextInterval := nextInterval st |}.

(** [simulateUpload]: [let progress = 0] and the timer is started. *)
Definition simulateUpload (st : State) : State := setInterval 0 st.

(** One firing of the callback passed to [setInterval] by [simulateUpload].
    A cleared handle never fires. *)
Definition intervalCallback (interval : nat) (st : State) : State :=
  match intervals st !! interval with
  | None => st
  | Some progress =>
      let progress := progress + 10 in
      let st := setProgressVar interval progress st in
      let st := setUploadProgress progress st in
      if (100 <=? progress)%Z then clearInterval interval st else st
  end.

Definition fileInfoOf (file : File) : FileInfo.t :=
  {| FileInfo.name := file_name file; FileInfo.size := file_size file |}.

(** [handleChange]: [file] is [files ? files[0] : null]; the Formik entry is
    written before the test [if (file)]. *)
Definition handleChange (props : FileInputProps) (files : FileList)
    (st : State) : State :=
  let file : value :=
    match files with
    | Some l => match item0 l with Some f => VFile f | None => VUndefined end
    | None => VNull
    end in
  let st := setFieldValue (name props) file st in
  match file with
  | VFile f =>
      let st := setFileInfo (Some (fileInfoOf f)) st in
      let st := setUploadProgress 0 st in
      simulateUpload st
  | _ => st
  end.

(** [handleClick] forwards the click to the hidden input; no state of the
    component or of the form changes. *)
Definition handleClick (st : State) : State := st.

(** [handleDrop]: [preventDefault] and [stopPropagation] act on the event
    object only. *)
Definition handleDrop (props : FileInputProps) (files : FileList)
    (st : State) : State :=
  let st := setDragging false st in
  match files with
  | Some l =>
      if (0 <? length l)%nat then
        let st :=
          match item0 l with
          | Some f =>
              let st := setFileInfo (Some (fileInfoOf f)) st in
              setFieldValue (name props) (VFile f) st
          | None => st
          end in
        let st := setUploadProgress 0 st in
        simulateUpload st
      else st
  | None => st
  end.

Definition handleDragOver (st : State) : State :=
  if negb (dragging st) then setDragging true st else st.

Definition handleDragLeave (st : State) : State := setDragging false st.

(** The events the component reacts to, and its transition function. *)
Inductive event :=
| Change (files : FileList)
| Click
| Drop (files : FileList)
| DragOver
| DragLeave
| Tick (interval : nat).

Definition step (props : FileInputProps) (ev : event) (st : State) : State :=
  match ev with
  | Change files => handleChange props files st
  | Click => handleClick st
  | Drop files => handleDrop props files st
  | DragOver => handleDragOver st
  | DragLeave => handleDragLeave st
  | Tick interval => intervalCallback interval st
  end.

Fixpoint run (props : FileInputProps) (evs : list event) (st : State) : State :=
  match evs with
  | [] => st
  | ev :: evs => run props evs (step props ev st)
  end.

(** The file-info block of the rendered output: absent until a file was
    selected; the size is [Math.round(fileInfo.size / 1024)] KB and the bar
    width is [uploadProgress] percent. *)
Record FileInfoView := { shownName : string; shownKB : Z; barWidth : Z }.

Definition displayedKB (sz : N) : Z :=
  Math_round (inject_Z (Z.of_N sz) / inject_Z 1024)%Q.

Definition render (st : State) : option FileInfoView :=
  match fileInfo st with
  | Some fi =>
      Some {| shownName := FileInfo.name fi;
              shownKB := displayedKB (FileInfo.size fi);
              barWidth := uploadProgress st |}
  | None => None
  end.

(** Where a selection comes from: the hidden input, or a drop. *)
Inductive source := Browse | DragAndDrop.

(** The selection event that supplies the files [f :: rest]. *)
Definition selection (src : source) (f : File) (rest : list File) : event :=
  match src with
  | Browse => Change (Some (f :: rest))
  | DragAndDrop => Drop (Some (f :: rest))
  end.

(** How often the timer [interval] fires in a sequence of events. *)
Fixpoint ticksOf (interval : nat) (evs : list event) : nat :=
  match evs with
  | [] => 0
  | Tick i :: evs =>
      if Nat.eqb i interval then S (ticksOf interval evs)
      else ticksOf interval evs
  | _ :: evs => ticksOf interval evs
  end.

(** What one firing does to the [progress] variable of a timer: ten more,
    and the timer is gone once the new value is 100 or above. *)
Definition advance (timer : option Z) : option Z :=
  match timer with
  | Some progress =>
      if (100 <=? progress + 10)%Z then None else Some (progress + 10)
  | None => None
  end.

(** A component instance as first mounted inside a form with value set
    [vals]. *)
Definition mount (vals : gmap string value) : State :=
  {| dragging := false; fileInfo := None; uploadProgress := 0;
     values := vals; intervals := ∅; nextInterval := 0 |}.

End FileInput.

(** ** The validation engine *)

Module Yup.

Inductive kind := KString | KMixed | KBoolean.

(** A field rule as the schema builders assemble it. *)
Record schema := {
  type : kind;
  requiredMessage : option String.string;
  whitelist : option (list String.string * String.string);
  isNullable : bool
}.

Definition ofKind (k : kind) : schema :=
  {| type := k; requiredMessage := None; whitelist := None;
     isNullable := false |}.

Definition mixed : schema := ofKind KMixed.
Definition boolean : schema := ofKind KBoolean.
Definition string : schema := ofKind KString.

Definition required (message : String.string) (s : schema) : schema :=
  {| type := type s; requiredMessage := Some message;
     whitelist := whitelist s; isNullable := isNullable s |}.

Definition oneOf (allowed : list String.string) (message : String.string)
    (s : schema) : schema :=
  {| type := type s; requiredMessage := requiredMessage s;
     whitelist := Some (allowed, message); isNullable := isNullable s |}.

Definition nullable (s : schema) : schema :=
  {| type := type s; requiredMessage := requiredMessage s;
     whitelist := whitelist s; isNullable := true |}.

(** [Yup.object({...})]: the rules by field name. *)
Definition object (shape : list (String.string * schema))
  : gmap String.string schema := list_to_map shape.

Inductive outcome :=
| Valid
| Invalid (message : String.string)
| TypeMismatch.

Definition hasKind (k : kind) (v : value) : bool :=
  match k, v with
  | KMixed, _ => true
  | KString, VString _ => true
  | KBoolean, VBool _ => true
  | _, _ => false
  end.

(** What "required" counts as empty: an unset or null value, and the empty
    text for a string rule. *)
Definition isEmpty (v : value) : bool :=
  match v with
  | VUndefined | VNull => true
  | VString s => String.eqb s ""
  | _ => false
  end.

Definition allowedBy (allowed : list String.string) (v : value) : bool :=
  match v with
  | VString s => existsb (String.eqb s) allowed
  | _ => false
  end.

(** Modelled from the spec: the engine that evaluates a rule is the external
    Yup library (called by Formik), which is not part of this repository's
    sources.  Following the spec's description of the ruleset (sections 4.2,
    6 and 8): a required rule fails with its message on an empty value (unset,
    null, or the empty text); a value that is not required may be unset, and
    may be null when the rule is nullable; a value that is present must have
    the rule's type and, when allowed labels are enumerated, be one of them,
    failing with the enumeration's message otherwise. *)
Definition validate (s : schema) (v : value) : outcome :=
  if isEmpty v then
    match requiredMessage s with
    | Some message => Invalid message
    | None =>
        match v with
        | VNull => if isNullable s then Valid else TypeMismatch
        | VUndefined => Valid
        | _ => if hasKind (type s) v then Valid else TypeMismatch
        end
    end
  else if hasKind (type s) v then
    match whitelist s with
    | Some (allowed, message) =>
        if allowedBy allowed v then Valid else Invalid message
    | None => Valid
    end
  else TypeMismatch.

(** Modelled from the spec: validation of one field of an object schema (the
    engine is external, as for [validate]).  A field without a rule is not
    validated: every value passes. *)
Definition validateAt (shape : gmap String.string schema)
    (field : String.string) (v : value) : outcome :=
  match shape !! field with
  | Some s => validate s v
  | None => Valid
  end.

(** A value set is validated field by field; a key that is missing from the
    set is an unset value. *)
Definition fieldValue (vals : gmap String.string value)
    (field : String.string) : value :=
  default VUndefined (vals !! field).

End Yup.

(** ** src/components/Form/formSchemas.ts *)

Module FormSchemas.

Definition initialValues : gmap string value :=
  list_to_map [
    ("importName", VString "");
    ("manifestFile", VNull);
    ("splitSchedule", VString "");
    ("client", VString "");
    ("testingCenter1", VString "");
    ("testingCenter2", VString "");
    ("testingCenter3", VString "");
    ("testingCenter4", VString "");
    ("toleranceWindow", VBool false)
  ].

Definition validationSchema : gmap string Yup.schema :=
  Yup.object [
    ("importName",
       Yup.oneOf ["Import ABC"; "Import DEF"; "Import GHI"] "Invalid Import Name"
         (Yup.required "Import name is required" Yup.string));
    ("manifestFile",
       Yup.nullable (Yup.required "A file is required" Yup.mixed));
    ("splitSchedule",
       Yup.oneOf ["Yes"; "No"] "Invalid Option"
         (Yup.required "This field is required" Yup.string));
    ("client",
       Yup.oneOf ["Single"; "Multiple"] "Invalid Client Type"
         (Yup.required "Client selection is required" Yup.string));
    ("toleranceWindow",
       Yup.required "Tolerance window selection is required" Yup.boolean)
  ].

(** The value of a boolean form field: [true], [false], or not set. *)
Definition ofToggle (o : option bool) : value :=
  match o with
  | Some b => VBool b
  | None => VUndefined
  end.

End FormSchemas.


Import FileInput.

(** ** Sample inputs *)

Definition manifestProps : FileInputProps :=
  {| label := "Manifest File"; required := true; name := "manifestFile" |}.

Definition manifestCsv : File :=
  {| file_name := "manifest.csv"; file_size := 1536 |}.

Definition otherCsv : File :=
  {| file_name := "other.csv"; file_size := 10 |}.

(** The form as first shown, and after "manifest.csv" was chosen through the
    hidden input. *)
Definition fresh : State := mount FormSchemas.initialValues.

Definition chosen : State :=
  handleChange manifestProps (Some [manifestCsv]) fresh.

(** The animation of "manifest.csv" after five firings of its timer. *)
Definition midway : State := run manifestProps (repeat (Tick 0%nat) 5) chosen.

(** ** Reading a sequence of events *)

(** The file an event selects: the first one of a change event's list or of
    a drop's payload. *)
Definition selectedBy (ev : event) : option File :=
  match ev with
  | Change (Some (f :: _)) | Drop (Some (f :: _)) => Some f
  | _ => None
  end.

(** What an event passes to [setFieldValue] for the field, if it calls it. *)
Definition writtenBy (ev : event) : option value :=
  match ev with
  | Change None => Some VNull
  | Change (Some []) => Some VUndefined
  | Change (Some (f :: _)) | Drop (Some (f :: _)) => Some (VFile f)
  | _ => None
  end.

(** The last event of a sequence on which [pick] answers. *)
Fixpoint lastOf {A : Type} (pick : event -> option A) (evs : list event)
  : option A :=
  match evs with
  | [] => None
  | ev :: evs =>
      match lastOf pick evs with
      | Some a => Some a
      | None => pick ev
      end
  end.

(** The hovering flag that a sequence of drag events leaves. *)
Fixpoint hoverAfter (evs : list event) (hovering : bool) : bool :=
  match evs with
  | [] => hovering
  | DragOver :: evs => hoverAfter evs true
  | DragLeave :: evs | Drop _ :: evs => hoverAfter evs false
  | _ :: evs => hoverAfter evs hovering
  end.

(** The [className] of the drop zone. *)
Definition dropZoneClass (st : State) : string :=
  "border border-grey-500 rounded-md p-4 flex flex-col items-center gap-4 "
  ++ (if dragging st then "bg-blue-100" else "bg-white")
  ++ " cursor-pointer".

(** The state of the animation between two events: every live timer holds
    one of 0, 10, ..., 90 and has a handle that was handed out, and the shown
    progress is one of 0, 10, ..., 100. *)
Definition steady (st : State) : Prop :=
  map_Forall
    (fun t p => 0 <= p < 100 /\ p mod 10 = 0 /\ (t < nextInterval st)%nat)
    (intervals st)
  /\ 0 <= uploadProgress st <= 100
  /\ uploadProgress st mod 10 = 0.

(** * Properties of the FileInput component *)

Section Handlers.

Variable props : FileInputProps.

(** ** Frame lemmas: what each handler leaves alone *)

Lemma setDragging_same (st : State) : setDragging (dragging st) st = st.
Proof. destruct st; reflexivity. Qed.

Lemma handleDragOver_sets (st : State) : handleDragOver st = setDragging true st.
Proof.
  unfold handleDragOver. destruct (dragging st) eqn:E; simpl; [|reflexivity].
  rewrite <- E. symmetry. apply setDragging_same.
Qed.

Lemma handleDrop_after_handleChange (f : File) (rest others : list File)
    (st : State) :
  handleDrop props (Some (f :: rest)) st =
  setDragging false (handleChange props (Some (f :: others)) st).
Proof. reflexivity. Qed.

(** ** The timers of [simulateUpload] *)

Lemma run_app (evs evs' : list event) (st : State) :
  run props (evs ++ evs') st = run props evs' (run props evs st).
Proof. revert st. induction evs as [|ev evs IH]; intros st; simpl; auto. Qed.

Lemma ticksOf_repeat (t n : nat) : ticksOf t (repeat (Tick t) n) = n.
Proof.
  induction n as [|n IH]; simpl; [reflexivity|].
  rewrite Nat.eqb_refl. congruence.
Qed.

Lemma intervalCallback_own (t : nat) (st : State) :
  intervals (intervalCallback t st) !! t = advance (intervals st !! t).
Proof.
  unfold intervalCallback.
  destruct (intervals st !! t) as [p|] eqn:E; simpl; [|exact E].
  destruct (100 <=? p + 10)%Z; simpl.
  - apply lookup_delete_eq.
  - apply lookup_insert_eq.
Qed.

Lemma intervalCallback_other (i t : nat) (st : State) :
  i <> t -> intervals (intervalCallback i st) !! t = intervals st !! t.
Proof.
  intros Hne. unfold intervalCallback.
  destruct (intervals st !! i) as [p|]; simpl; [|reflexivity].
  destruct (100 <=? p + 10)%Z; simpl.
  - rewrite lookup_delete_ne by exact Hne. apply lookup_insert_ne, Hne.
  - apply lookup_insert_ne, Hne.
Qed.

Lemma intervalCallback_next (i : nat) (st : State) :
  nextInterval (intervalCallback i st) = nextInterval st.
Proof.
  unfold intervalCallback. destruct (intervals st !! i) as [p|]; simpl; auto.
  destruct (100 <=? p + 10)%Z; reflexivity.
Qed.

Lemma intervalCallback_shown (t : nat) (st : State) :
  uploadProgress (intervalCallback t st) =
  match intervals st !! t with
  | Some p => p + 10
  | None => uploadProgress st
  end.
Proof.
  unfold intervalCallback. destruct (intervals st !! t) as [p|]; simpl; auto.
  destruct (100 <=? p + 10)%Z; reflexivity.
Qed.

(** Handles are allocated upwards, so no event other than its own firing
    touches a timer that already exists. *)
Lemma step_interval (ev : event) (t : nat) (st : State) :
  (t < nextInterval st)%nat ->
  intervals (step props ev st) !! t =
    Nat.iter (ticksOf t [ev]) advance (intervals st !! t)
  /\ (t < nextInterval (step props ev st))%nat.
Proof.
  intros Hlt.
  assert (Hfresh : forall p, <[nextInterval st := p]> (intervals st) !! t
                             = intervals st !! t).
  { intros p. apply lookup_insert_ne. lia. }
  destruct ev as [files| |files| | |i]; simpl.
  - destruct files as [[|f rest]|]; simpl; auto.
  - auto.
  - destruct files as [[|f rest]|]; simpl; auto.
  - rewrite handleDragOver_sets. auto.
  - auto.
  - rewrite intervalCallback_next. split; [|exact Hlt].
    destruct (Nat.eqb_spec i t) as [->|Hne]; simpl.
    + apply intervalCallback_own.
    + apply intervalCallback_other, Hne.
Qed.

Lemma ticksOf_cons (t : nat) (ev : event) (evs : list event) :
  ticksOf t (ev :: evs) = (ticksOf t [ev] + ticksOf t evs)%nat.
Proof.
  destruct ev as [files| |files| | |i]; simpl; try reflexivity.
  destruct (Nat.eqb i t); reflexivity.
Qed.

Lemma run_interval (evs : list event) (t : nat) (st : State) :
  (t < nextInterval st)%nat ->
  intervals (run props evs st) !! t =
    Nat.iter (ticksOf t evs) advance (intervals st !! t).
Proof.
  revert st. induction evs as [|ev evs IH]; intros st Hlt; [reflexivity|].
  destruct (step_interval ev t st Hlt) as [Hstep Hlt'].
  cbn [run]. rewrite (ticksOf_cons t ev evs), (IH _ Hlt'), Hstep.
  rewrite Nat.add_comm. symmetry. apply Nat.iter_add.
Qed.

Lemma iter_advance_dead (k : nat) : Nat.iter k advance None = None.
Proof. induction k as [|k IH]; simpl; [|rewrite IH]; reflexivity. Qed.

Lemma iter_advance (k j : nat) :
  (j < 10)%nat ->
  Nat.iter k advance (Some (10 * Z.of_nat j)) =
    if (j + k <? 10)%nat then Some (10 * Z.of_nat (j + k)) else None.
Proof.
  revert j. induction k as [|k IH]; intros j Hj.
  - rewrite Nat.add_0_r. simpl Nat.iter.
    destruct (Nat.ltb_spec j 10); [reflexivity|lia].
  - rewrite Nat.iter_succ_r. unfold advance at 2.
    destruct (Z.leb_spec 100 (10 * Z.of_nat j + 10)) as [Hge|Hlt'].
    + rewrite iter_advance_dead.
      destruct (Nat.ltb_spec (j + S k) 10); [lia|reflexivity].
    + replace (10 * Z.of_nat j + 10) with (10 * Z.of_nat (S j)) by lia.
      rewrite IH by lia. replace (S j + k)%nat with (j + S k)%nat by lia.
      reflexivity.
Qed.

Lemma selection_starts (src : source) (f : File) (rest : list File)
    (st : State) :
  let st0 := step props (selection src f rest) st in
  uploadProgress st0 = 0
  /\ intervals st0 !! nextInterval st = Some 0
  /\ nextInterval st0 = S (nextInterval st).
Proof.
  destruct src; simpl; (split; [reflexivity|split; [|reflexivity]]);
    apply lookup_insert_eq.
Qed.

Lemma selection_entry (src : source) (f : File) (rest : list File)
    (st : State) :
  values (step props (selection src f rest) st) !! name props
  = Some (VFile f).
Proof. destruct src; apply lookup_insert_eq. Qed.

Lemma selection_timer (src : source) (f : File) (rest : list File)
    (st : State) (evs : list event) :
  intervals (run props evs (step props (selection src f rest) st))
    !! nextInterval st
  = if (ticksOf (nextInterval st) evs <? 10)%nat
    then Some (10 * Z.of_nat (ticksOf (nextInterval st) evs)) else None.
Proof.
  destruct (selection_starts src f rest st) as (_ & Hzero & Hnext).
  rewrite run_interval by (rewrite Hnext; lia).
  rewrite Hzero. apply (iter_advance _ 0). lia.
Qed.

Lemma selection_tick (src : source) (f : File) (rest : list File)
    (st : State) (evs : list event) :
  uploadProgress
    (run props (evs ++ [Tick (nextInterval st)])
       (step props (selection src f rest) st))
  = if (ticksOf (nextInterval st) evs <? 10)%nat
    then 10 * Z.of_nat (ticksOf (nextInterval st) evs) + 10
    else uploadProgress (run props evs (step props (selection src f rest) st)).
Proof.
  rewrite run_app. cbn [run step]. rewrite intervalCallback_shown.
  rewrite selection_timer.
  destruct (ticksOf (nextInterval st) evs <? 10)%nat; reflexivity.
Qed.

Lemma selection_alone (src : source) (f : File) (rest : list File)
    (st : State) (n : nat) :
  uploadProgress
    (run props (repeat (Tick (nextInterval st)) n)
       (step props (selection src f rest) st))
  = 10 * Z.of_nat (Nat.min n 10).
Proof.
  induction n as [|n IH].
  - apply selection_starts.
  - cbn [repeat]. rewrite repeat_cons, selection_tick, ticksOf_repeat, IH.
    destruct (Nat.ltb_spec n 10); lia.
Qed.

End Handlers.

(** ** Selection without a file *)

(** C1, as stated, fails: after "manifest.csv" was chosen, a change event
    whose file list is empty overwrites the form entry of the field (with
    [undefined]), so [handleChange] without a file is not a no-op on the
    shared form state. *)
Lemma handleChange_no_file_writes_entry :
  ~ (forall (props : FileInputProps) (st : State),
       let st' := handleChange props (Some []) st in
       fileInfo st' = fileInfo st
       /\ uploadProgress st' = uploadProgress st
       /\ values st' !! name props = values st !! name props).
Proof.
  intros H. destruct (H manifestProps chosen) as (_ & _ & Hentry).
  vm_compute in Hentry. discriminate Hentry.
Qed.

(** C1 (amended): a drop without files leaves the file info, the progress,
    the form values and the timers as they were (only the hovering flag is
    cleared).  A change event without a file leaves the file info, the
    progress and the timers as they were, and writes the form entry of the
    field: [null] when there is no file list, [undefined] when the list is
    empty. *)
Theorem no_file_frame (props : FileInputProps) (st : State) :
  (handleDrop props (Some []) st = setDragging false st
   /\ handleDrop props None st = setDragging false st
   /\ fileInfo (setDragging false st) = fileInfo st
   /\ uploadProgress (setDragging false st) = uploadProgress st
   /\ values (setDragging false st) = values st
   /\ intervals (setDragging false st) = intervals st)
  /\ (handleChange props None st = setFieldValue (name props) VNull st
      /\ handleChange props (Some []) st
         = setFieldValue (name props) VUndefined st)
  /\ (forall v : value,
        let st' := setFieldValue (name props) v st in
        fileInfo st' = fileInfo st
        /\ uploadProgress st' = uploadProgress st
        /\ intervals st' = intervals st
        /\ dragging st' = dragging st
        /\ values st' !! name props = Some v).
Proof.
  repeat split; try reflexivity.
  apply lookup_insert_eq.
Qed.

(** ** A drop selects like the hidden input *)

(** C3: a drop of at least one file ends in the same file info, progress
    and form entry (indeed the same form values and timers) as a change
    event for the first dropped file; the two results differ at most in the
    hovering flag, which the drop clears. *)
Theorem handleDrop_as_handleChange (props : FileInputProps) (f : File)
    (rest : list File) (st : State) :
  let dropped := handleDrop props (Some (f :: rest)) st in
  let changed := handleChange props (Some [f]) st in
  fileInfo dropped = fileInfo changed
  /\ uploadProgress dropped = uploadProgress changed
  /\ values dropped !! name props = values changed !! name props
  /\ values dropped = values changed
  /\ intervals dropped = intervals changed
  /\ dropped = setDragging false changed.
Proof. repeat split. Qed.

(** ** The display agrees with the form *)

(** C10: after a selection that supplies a file, the form entry of the field
    holds that file, and the displayed descriptor carries its name and
    size. *)
Theorem fileInfo_matches_form_entry (props : FileInputProps) (src : source)
    (f : File) (rest : list File) (st : State) :
  let st' := step props (selection src f rest) st in
  values st' !! name props = Some (VFile f)
  /\ fileInfo st'
     = Some {| FileInfo.name := file_name f; FileInfo.size := file_size f |}.
Proof.
  split; [apply selection_entry|destruct src; reflexivity].
Qed.

(** ** Hovering *)

(** C9: [handleDragOver] leaves the hovering flag set, changes nothing when
    it is set already, and doing it twice is doing it once;
    [handleDragLeave] leaves the flag cleared whatever it was.  Neither
    touches anything else. *)
Theorem hovering_flag (st : State) :
  dragging (handleDragOver st) = true
  /\ (if dragging st then handleDragOver st = st
      else handleDragOver st = setDragging true st)
  /\ handleDragOver (handleDragOver st) = handleDragOver st
  /\ dragging (handleDragLeave st) = false
  /\ handleDragLeave st = setDragging false st
  /\ (forall b : bool,
        fileInfo (setDragging b st) = fileInfo st
        /\ uploadProgress (setDragging b st) = uploadProgress st
        /\ values (setDragging b st) = values st
        /\ intervals (setDragging b st) = intervals st).
Proof.
  rewrite !handleDragOver_sets. repeat split.
  destruct (dragging st) eqn:E; [|reflexivity].
  rewrite <- E. apply setDragging_same.
Qed.

(** ** The progress animation *)

Lemma lastOf_cons_none {A : Type} (pick : event -> option A) (ev : event)
    (evs : list event) :
  lastOf pick (ev :: evs) = None -> pick ev = None /\ lastOf pick evs = None.
Proof.
  cbn [lastOf]. destruct (lastOf pick evs) as [a|]; [discriminate|].
  intros H. split; [exact H|reflexivity].
Qed.

Lemma lastOf_app_none {A : Type} (pick : event -> option A)
    (evs evs' : list event) :
  lastOf pick (evs ++ evs')%list = None ->
  lastOf pick evs = None /\ lastOf pick evs' = None.
Proof.
  induction evs as [|ev evs IH]; [intros H; split; [reflexivity|exact H]|].
  intros H. apply lastOf_cons_none in H as [Hev H].
  destruct (IH H) as [H1 H2]. split; [|exact H2].
  cbn [lastOf]. rewrite H1. exact Hev.
Qed.

Lemma ticksOf_app (t : nat) (evs evs' : list event) :
  ticksOf t (evs ++ evs')%list = (ticksOf t evs + ticksOf t evs')%nat.
Proof.
  induction evs as [|ev evs IH]; [reflexivity|].
  change ((ev :: evs) ++ evs')%list with (ev :: (evs ++ evs')%list).
  rewrite (ticksOf_cons t ev (evs ++ evs')), (ticksOf_cons t ev evs), IH. lia.
Qed.

(** A component whose only timer is [t], after [j] firings of it: the timer
    holds [10 * j] until it is cleared at the tenth, and so does the
    display.  Events that select no file keep the component in this shape. *)
Lemma alone_step (props : FileInputProps) (t j : nat) (ev : event)
    (st : State) :
  intervals st
    = (if (j <? 10)%nat then {[t := 10 * Z.of_nat j]} else ∅) ->
  uploadProgress st = 10 * Z.of_nat (Nat.min j 10) ->
  selectedBy ev = None ->
  intervals (step props ev st)
    = (if (j + ticksOf t [ev] <? 10)%nat
       then {[t := 10 * Z.of_nat (j + ticksOf t [ev])]} else ∅)
  /\ uploadProgress (step props ev st)
     = 10 * Z.of_nat (Nat.min (j + ticksOf t [ev]) 10).
Proof.
  intros Hlive Hshown Hsel.
  assert (Hsame : intervals st
                  = (if (j + 0 <? 10)%nat
                     then {[t := 10 * Z.of_nat (j + 0)]} else ∅)
                  /\ uploadProgress st = 10 * Z.of_nat (Nat.min (j + 0) 10)).
  { rewrite Nat.add_0_r. split; assumption. }
  destruct ev as [files| |files| | |i]; cbn [step].
  - destruct files as [[|f rest]|]; try discriminate Hsel; exact Hsame.
  - exact Hsame.
  - destruct files as [[|f rest]|]; try discriminate Hsel; exact Hsame.
  - rewrite handleDragOver_sets. exact Hsame.
  - exact Hsame.
  - cbn [ticksOf]. destruct (Nat.eqb_spec i t) as [->|Hne].
    + unfold intervalCallback. destruct (Nat.ltb_spec j 10) as [Hj|Hj].
      * rewrite Hlive, lookup_singleton_eq.
        destruct (Z.leb_spec 100 (10 * Z.of_nat j + 10)) as [Hge|Hlt]; simpl.
        -- rewrite Hlive, delete_insert_eq, delete_singleton_eq.
           destruct (Nat.ltb_spec (j + 1) 10); [lia|]. split; [reflexivity|lia].
        -- rewrite Hlive, insert_singleton_eq.
           destruct (Nat.ltb_spec (j + 1) 10); [|lia].
           replace (10 * Z.of_nat (j + 1)) with (10 * Z.of_nat j + 10) by lia.
           split; [reflexivity|lia].
      * rewrite Hlive, lookup_empty.
        destruct (Nat.ltb_spec (j + 1) 10); [lia|]. split; [exact Hlive|lia].
    + unfold intervalCallback.
      assert (Hdead : intervals st !! i = None).
      { rewrite Hlive. destruct (j <? 10)%nat;
          [apply lookup_singleton_ne; auto|apply lookup_empty]. }
      rewrite Hdead. exact Hsame.
Qed.

Lemma alone_run (props : FileInputProps) (t : nat) (evs : list event)
    (j : nat) (st : State) :
  intervals st
    = (if (j <? 10)%nat then {[t := 10 * Z.of_nat j]} else ∅) ->
  uploadProgress st = 10 * Z.of_nat (Nat.min j 10) ->
  lastOf selectedBy evs = None ->
  intervals (run props evs st)
    = (if (j + ticksOf t evs <? 10)%nat
       then {[t := 10 * Z.of_nat (j + ticksOf t evs)]} else ∅)
  /\ uploadProgress (run props evs st)
     = 10 * Z.of_nat (Nat.min (j + ticksOf t evs) 10).
Proof.
  revert j st. induction evs as [|ev evs IH]; intros j st Hlive Hshown Hsel.
  - cbn [run ticksOf]. rewrite Nat.add_0_r. split; assumption.
  - apply lastOf_cons_none in Hsel as [Hev Hsel].
    destruct (alone_step props t j ev st Hlive Hshown Hev) as [Hlive' Hshown'].
    destruct (IH _ _ Hlive' Hshown' Hsel) as [H1 H2].
    cbn [run]. rewrite (ticksOf_cons t ev evs), Nat.add_assoc.
    split; assumption.
Qed.

Lemma selection_alone_display (props : FileInputProps) (src : source)
    (f : File) (rest : list File) (st : State) (evs : list event) :
  intervals st = ∅ ->
  lastOf selectedBy evs = None ->
  intervals (run props evs (step props (selection src f rest) st))
    = (if (ticksOf (nextInterval st) evs <? 10)%nat
       then {[nextInterval st := 10 * Z.of_nat (ticksOf (nextInterval st) evs)]}
       else ∅)
  /\ uploadProgress (run props evs (step props (selection src f rest) st))
     = 10 * Z.of_nat (Nat.min (ticksOf (nextInterval st) evs) 10).
Proof.
  intros Hnone Hsel.
  apply (alone_run props (nextInterval st) evs 0); [|apply selection_starts|exact Hsel].
  destruct src; simpl; rewrite Hnone; apply insert_empty.
Qed.

(** C2, as stated, fails for the displayed progress: "other.csv" is dropped
    while the animation of "manifest.csv" is at 50.  The display then shows
    0, 60, 10 as the two timers fire in turn, and it shows 100 after five
    firings of the older timer, when the new one has not fired at all. *)
Lemma overlapping_selection_breaks_progress :
  let st0 := step manifestProps (selection DragAndDrop otherCsv []) midway in
  (uploadProgress st0 = 0
   /\ uploadProgress (run manifestProps [Tick 0%nat] st0) = 60
   /\ uploadProgress (run manifestProps [Tick 0%nat; Tick 1%nat] st0) = 10
   /\ uploadProgress (run manifestProps (repeat (Tick 0%nat) 5) st0) = 100
   /\ intervals (run manifestProps (repeat (Tick 0%nat) 5) st0) !! 1%nat
      = Some 0)
  /\ ~ (forall (props : FileInputProps) (vals : gmap string value)
          (before after : list event) (src : source) (f : File)
          (rest : list File) (i : nat),
          let st0 := step props (selection src f rest)
                       (run props before (mount vals)) in
          uploadProgress (run props after st0)
          <= uploadProgress (run props (after ++ [Tick i]) st0)).
Proof.
  split; [vm_compute; repeat split|].
  intros H.
  specialize (H manifestProps FormSchemas.initialValues
                (Change (Some [manifestCsv]) :: repeat (Tick 0%nat) 5)
                [Tick 0%nat] DragAndDrop otherCsv [] 1%nat).
  vm_compute in H. apply H. reflexivity.
Qed.

(** C2 (amended): a selection, through the hidden input or by a drop, shows
    progress 0 and starts a timer whose [progress] variable is 0.  However
    the later events interleave, that timer holds ten times the number of
    its firings while that number is below ten and is cleared from the tenth
    firing on, and each of its first ten firings shows its previous value
    plus ten.  When no timer of an earlier selection is live and no further
    file is selected, the displayed progress is ten times the number of
    firings, at most 100, after any events: it starts at 0, never decreases,
    and is 100 exactly from the tenth firing on, when no timer is left. *)
Theorem simulateUpload_progress (props : FileInputProps) (src : source)
    (f : File) (rest : list File) (st : State) (evs evs' : list event) :
  let t := nextInterval st in
  let st0 := step props (selection src f rest) st in
  let k := ticksOf t evs in
  (uploadProgress st0 = 0 /\ intervals st0 !! t = Some 0)
  /\ intervals (run props evs st0) !! t
     = (if (k <? 10)%nat then Some (10 * Z.of_nat k) else None)
  /\ uploadProgress (run props (evs ++ [Tick t]) st0)
     = (if (k <? 10)%nat then 10 * Z.of_nat k + 10
        else uploadProgress (run props evs st0))
  /\ (intervals st = ∅ ->
      lastOf selectedBy evs = None ->
      uploadProgress (run props evs st0) = 10 * Z.of_nat (Nat.min k 10)
      /\ (uploadProgress (run props evs st0) = 100 <-> (10 <= k)%nat)
      /\ intervals (run props evs st0)
         = (if (k <? 10)%nat then {[t := 10 * Z.of_nat k]} else ∅))
  /\ (intervals st = ∅ ->
      lastOf selectedBy (evs ++ evs')%list = None ->
      uploadProgress (run props evs st0)
      <= uploadProgress (run props (evs ++ evs') st0)).
Proof.
  intros t st0 k. subst t st0 k.
  split; [split; apply selection_starts|].
  split; [apply selection_timer|].
  split; [apply selection_tick|].
  split.
  - intros Hnone Hsel.
    destruct (selection_alone_display props src f rest st evs Hnone Hsel)
      as [Hlive Hshown].
    split; [exact Hshown|]. split; [rewrite Hshown; lia|exact Hlive].
  - intros Hnone Hsel.
    destruct (lastOf_app_none _ _ _ Hsel) as [Hsel1 _].
    destruct (selection_alone_display props src f rest st evs Hnone Hsel1)
      as [_ ->].
    destruct (selection_alone_display props src f rest st _ Hnone Hsel)
      as [_ ->].
    rewrite ticksOf_app. lia.
Qed.

(** "manifest.csv" is chosen in the form as first shown; its timer has fired
    twice among other events, and the display shows 20 and does not fall
    with the next firing. *)
Lemma simulateUpload_progress_witness :
  let evs := [Tick 0%nat; DragOver; Tick 7%nat; Tick 0%nat; Change None] in
  let st0 := step manifestProps (selection Browse manifestCsv []) fresh in
  intervals fresh = ∅
  /\ lastOf selectedBy (evs ++ [Tick 0%nat])%list = None
  /\ uploadProgress (run manifestProps evs st0) = 20
  /\ uploadProgress (run manifestProps evs st0)
     <= uploadProgress (run manifestProps (evs ++ [Tick 0%nat]) st0).
Proof.
  intros evs st0.
  assert (Hnone : intervals fresh = ∅) by reflexivity.
  assert (Hsel : lastOf selectedBy evs = None) by reflexivity.
  assert (Hsel' : lastOf selectedBy (evs ++ [Tick 0%nat])%list = None)
    by reflexivity.
  destruct (simulateUpload_progress manifestProps Browse manifestCsv [] fresh
              evs [Tick 0%nat]) as (_ & _ & _ & Hshown & Hmono).
  destruct (Hshown Hnone Hsel) as (H20 & _ & _).
  split; [exact Hnone|]. split; [exact Hsel'|].
  split; [exact H20|exact (Hmono Hnone Hsel')].
Defined.

(** The timers of two selections are independent: when a second file is
    chosen while the first animation is at 50, the firings of the two
    timers alternate on the display. *)
Example overlapping_animations :
  let st := run manifestProps (repeat (Tick 0%nat) 5) chosen in
  let st' := handleChange manifestProps (Some [otherCsv]) st in
  uploadProgress st = 50
  /\ uploadProgress st' = 0
  /\ uploadProgress (run manifestProps [Tick 0%nat] st') = 60
  /\ uploadProgress (run manifestProps [Tick 0%nat; Tick 1%nat] st') = 10.
Proof. vm_compute. repeat split. Qed.

(** ** The displayed size *)

Lemma displayedKB_div (sz : N) : displayedKB sz = (Z.of_N sz + 512) / 1024.
Proof.
  unfold displayedKB, Math_round, Qfloor, Qdiv, Qplus, Qmult, Qinv, inject_Z.
  cbn [Qnum Qden]. set (z := Z.of_N sz).
  change (Z.pos ((1 * 1024) * 2)) with (1024 * 2).
  replace (z * 1 * 2 + 1 * Z.pos (1 * 1024)) with ((z + 512) * 2) by lia.
  apply Z.div_mul_cancel_r; lia.
Qed.

(** C4: once a file of [s] bytes is selected, the file-info block is shown
    with the file's name and with [Math.round(s / 1024)] as its size in KB:
    the integer nearest to [s / 1024], the upper one at a tie. *)
Theorem displayed_size_rounds (props : FileInputProps) (src : source)
    (f : File) (rest : list File) (st : State) :
  let s := Z.of_N (file_size f) in
  let kb := Math_round (inject_Z s / inject_Z 1024)%Q in
  render (step props (selection src f rest) st)
  = Some {| shownName := file_name f; shownKB := kb; barWidth := 0 |}
  /\ kb = (s + 512) / 1024
  /\ 1024 * kb - 512 <= s < 1024 * kb + 512.
Proof.
  intros s kb.
  assert (Hkb : kb = (s + 512) / 1024) by apply displayedKB_div.
  split; [destruct src; reflexivity|]. split; [exact Hkb|].
  pose proof (Z.div_mod (s + 512) 1024 ltac:(lia)) as Hdiv.
  pose proof (Z.mod_pos_bound (s + 512) 1024 ltac:(lia)) as Hmod.
  rewrite <- Hkb in Hdiv. lia.
Qed.

(** * Properties of the form schema *)

Section Schema.

Import FormSchemas.

Local Abbreviation check := (Yup.validateAt validationSchema).

(** C5: under the [importName] rule "Import ABC" passes, "Import XYZ" fails
    with the message of the enumeration, and the empty text (the field's
    initial value) fails with the message of the required check.  In general
    a non-empty text passes exactly when it is one of the three labels. *)
Theorem importName_rule :
  check "importName" (VString "Import ABC") = Yup.Valid
  /\ check "importName" (VString "Import XYZ")
     = Yup.Invalid "Invalid Import Name"
  /\ check "importName" (VString "") = Yup.Invalid "Import name is required"
  /\ check "importName" (Yup.fieldValue initialValues "importName")
     = Yup.Invalid "Import name is required"
  /\ (forall s : string,
        check "importName" (VString s)
        = if String.eqb s "" then Yup.Invalid "Import name is required"
          else if existsb (String.eqb s)
                    ["Import ABC"; "Import DEF"; "Import GHI"]
          then Yup.Valid
          else Yup.Invalid "Invalid Import Name").
Proof. repeat split. Qed.

(** C6: under the [manifestFile] rule [null] (the field's initial value)
    fails with the message of the required check, and every file object
    passes, in particular the entry that a selection writes. *)
Theorem manifestFile_rule :
  check "manifestFile" VNull = Yup.Invalid "A file is required"
  /\ check "manifestFile" (Yup.fieldValue initialValues "manifestFile")
     = Yup.Invalid "A file is required"
  /\ (forall f : File, check "manifestFile" (VFile f) = Yup.Valid)
  /\ (forall (src : source) (f : File) (rest : list File) (st : State),
        check "manifestFile"
          (Yup.fieldValue
             (values (step manifestProps (selection src f rest) st))
             "manifestFile")
        = Yup.Valid).
Proof.
  repeat split. intros src f rest st. unfold Yup.fieldValue.
  change "manifestFile" with (name manifestProps) at 2.
  rewrite selection_entry. reflexivity.
Qed.

(** C7: under the [toleranceWindow] rule [true] and [false] both pass, and
    a toggle value fails exactly when it is not set, with the message of the
    required check. *)
Theorem toleranceWindow_rule :
  (forall b : bool, check "toleranceWindow" (VBool b) = Yup.Valid)
  /\ check "toleranceWindow" VUndefined
     = Yup.Invalid "Tolerance window selection is required"
  /\ check "toleranceWindow" (Yup.fieldValue initialValues "toleranceWindow")
     = Yup.Valid
  /\ (forall o : option bool,
        check "toleranceWindow" (ofToggle o) <> Yup.Valid <-> o = None).
Proof.
  repeat split; try discriminate.
  - destruct o as [b|]; [|reflexivity]. intros H. exfalso. apply H. reflexivity.
  - intros ->. discriminate.
Qed.

(** C8: [testingCenter1] to [testingCenter4] are initial values of the form
    (the empty text) and have no rule in the schema, so every value of such
    a field passes. *)
Theorem testingCenter_unvalidated (v : value) :
  (initialValues !! "testingCenter1" = Some (VString "")
   /\ initialValues !! "testingCenter2" = Some (VString "")
   /\ initialValues !! "testingCenter3" = Some (VString "")
   /\ initialValues !! "testingCenter4" = Some (VString ""))
  /\ (validationSchema !! "testingCenter1" = None
      /\ validationSchema !! "testingCenter2" = None
      /\ validationSchema !! "testingCenter3" = None
      /\ validationSchema !! "testingCenter4" = None)
  /\ (check "testingCenter1" v = Yup.Valid
      /\ check "testingCenter2" v = Yup.Valid
      /\ check "testingCenter3" v = Yup.Valid
      /\ check "testingCenter4" v = Yup.Valid).
Proof. repeat split. Qed.

End Schema.

(** * The component over a whole sequence of events *)

Section Traces.

Variable props : FileInputProps.

(** ** What is displayed and what the form holds *)

Lemma intervalCallback_frame (i : nat) (st : State) :
  fileInfo (intervalCallback i st) = fileInfo st
  /\ values (intervalCallback i st) = values st
  /\ dragging (intervalCallback i st) = dragging st.
Proof.
  unfold intervalCallback. destruct (intervals st !! i) as [p|]; simpl; auto.
  destruct (100 <=? p + 10)%Z; auto.
Qed.

Lemma step_fileInfo (ev : event) (st : State) :
  fileInfo (step props ev st) =
  match selectedBy ev with
  | Some f => Some (fileInfoOf f)
  | None => fileInfo st
  end.
Proof.
  destruct ev as [files| |files| | |i]; simpl; try reflexivity.
  - destruct files as [[|f rest]|]; reflexivity.
  - destruct files as [[|f rest]|]; reflexivity.
  - rewrite handleDragOver_sets. reflexivity.
  - apply intervalCallback_frame.
Qed.

Lemma step_values (ev : event) (st : State) :
  values (step props ev st) =
  match writtenBy ev with
  | Some v => <[name props := v]> (values st)
  | None => values st
  end.
Proof.
  destruct ev as [files| |files| | |i]; simpl; try reflexivity.
  - destruct files as [[|f rest]|]; reflexivity.
  - destruct files as [[|f rest]|]; reflexivity.
  - rewrite handleDragOver_sets. reflexivity.
  - apply intervalCallback_frame.
Qed.

Lemma run_fileInfo (evs : list event) (st : State) :
  fileInfo (run props evs st) =
  match lastOf selectedBy evs with
  | Some f => Some (fileInfoOf f)
  | None => fileInfo st
  end.
Proof.
  revert st. induction evs as [|ev evs IH]; intros st; [reflexivity|].
  cbn [run lastOf]. rewrite IH, step_fileInfo.
  destruct (lastOf selectedBy evs); reflexivity.
Qed.

(** X1: whatever the events, the file info is that of the last file that a
    change event or a drop supplied, and is what it was when there was none:
    no event removes it.  Mounted afresh, the file-info block is rendered
    exactly from the first such selection on, with the name and size of the
    last one. *)
Theorem fileInfo_last_selected (evs : list event) (st : State)
    (vals : gmap string value) :
  fileInfo (run props evs st)
  = match lastOf selectedBy evs with
    | Some f => Some (fileInfoOf f)
    | None => fileInfo st
    end
  /\ render (run props evs (mount vals))
     = match lastOf selectedBy evs with
       | Some f =>
           Some {| shownName := file_name f;
                   shownKB := displayedKB (file_size f);
                   barWidth := uploadProgress (run props evs (mount vals)) |}
       | None => None
       end.
Proof.
  split; [apply run_fileInfo|].
  unfold render. rewrite run_fileInfo.
  destruct (lastOf selectedBy evs); reflexivity.
Qed.

(** X2: whatever the events, the form values are the initial ones with at
    most the entry of this field replaced, by what the last writing event
    wrote: a change event always writes (the first file, [undefined] for an
    empty list, [null] for no list), a drop writes only when it carries a
    file, and no other event writes.  Every other entry of the form is as it
    was. *)
Theorem values_last_written (evs : list event) (st : State) :
  values (run props evs st)
  = match lastOf writtenBy evs with
    | Some v => <[name props := v]> (values st)
    | None => values st
    end
  /\ delete (name props) (values (run props evs st))
     = delete (name props) (values st).
Proof.
  assert (H : forall evs st,
    values (run props evs st)
    = match lastOf writtenBy evs with
      | Some v => <[name props := v]> (values st)
      | None => values st
      end).
  { clear. intros evs. induction evs as [|ev evs IH]; intros st; [reflexivity|].
    cbn [run lastOf]. rewrite IH, step_values.
    destruct (lastOf writtenBy evs) as [v|]; [|reflexivity].
    destruct (writtenBy ev) as [w|]; [|reflexivity].
    apply insert_insert_eq. }
  split; [apply H|]. rewrite H.
  destruct (lastOf writtenBy evs) as [v|]; [|reflexivity].
  apply delete_insert_eq.
Qed.

(** X3: after a file was selected, a change event without a file takes the
    file out of the form entry ([undefined] for an empty list, [null] for
    no list) while the file info of that file stays displayed; a drop
    without files keeps both. *)
Theorem display_outlives_entry (src : source) (f : File) (rest : list File)
    (st : State) :
  let st' := step props (selection src f rest) st in
  (fileInfo (handleChange props (Some []) st') = Some (fileInfoOf f)
   /\ values (handleChange props (Some []) st') !! name props
      = Some VUndefined)
  /\ (fileInfo (handleChange props None st') = Some (fileInfoOf f)
      /\ values (handleChange props None st') !! name props = Some VNull)
  /\ (fileInfo (handleDrop props (Some []) st') = Some (fileInfoOf f)
      /\ values (handleDrop props (Some []) st') !! name props
         = Some (VFile f)).
Proof.
  intros st'.
  assert (Hinfo : fileInfo st' = Some (fileInfoOf f))
    by (subst st'; destruct src; reflexivity).
  assert (Hentry : values st' !! name props = Some (VFile f))
    by apply selection_entry.
  repeat split; simpl; try exact Hinfo; try exact Hentry;
    apply lookup_insert_eq.
Qed.

(** ** The hovering flag *)

Lemma step_dragging (ev : event) (st : State) :
  dragging (step props ev st) = hoverAfter [ev] (dragging st).
Proof.
  destruct ev as [files| |files| | |i]; simpl; try reflexivity.
  - destruct files as [[|f rest]|]; reflexivity.
  - destruct files as [[|f rest]|]; reflexivity.
  - rewrite handleDragOver_sets. reflexivity.
  - apply intervalCallback_frame.
Qed.

Lemma hoverAfter_cons (ev : event) (evs : list event) (b : bool) :
  hoverAfter (ev :: evs) b = hoverAfter evs (hoverAfter [ev] b).
Proof. destruct ev; reflexivity. Qed.

(** X7: the hovering flag follows the drag events alone: it is set by the
    last drag-over unless a drag-leave or a drop (with or without files)
    came after it, and change events, clicks and timer firings leave it as
    it is.  The drop zone has the highlighted background exactly when the
    flag is set. *)
Theorem hovering_follows_drag_events (evs : list event) (st : State) :
  dragging (run props evs st) = hoverAfter evs (dragging st)
  /\ dropZoneClass (run props evs st)
     = if hoverAfter evs (dragging st)
       then "border border-grey-500 rounded-md p-4 flex flex-col items-center gap-4 bg-blue-100 cursor-pointer"
       else "border border-grey-500 rounded-md p-4 flex flex-col items-center gap-4 bg-white cursor-pointer".
Proof.
  assert (H : forall evs st,
            dragging (run props evs st) = hoverAfter evs (dragging st)).
  { clear. intros evs. induction evs as [|ev evs IH]; intros st; [reflexivity|].
    cbn [run]. rewrite IH, step_dragging. symmetry. apply hoverAfter_cons. }
  split; [apply H|]. unfold dropZoneClass. rewrite H.
  destruct (hoverAfter evs (dragging st)); reflexivity.
Qed.

End Traces.

(** * The animation as an invariant *)

Section Animation.

Variable props : FileInputProps.

Lemma steady_mount (vals : gmap string value) : steady (mount vals).
Proof.
  split; [apply map_Forall_empty|]. simpl. split; [lia|reflexivity].
Qed.

Lemma steady_setDragging (b : bool) (st : State) :
  steady st -> steady (setDragging b st).
Proof. intros H. exact H. Qed.

Lemma steady_select (field : string) (v : value) (fi : option FileInfo.t)
    (b : bool) (st : State) :
  steady st ->
  steady
    (simulateUpload
       (setUploadProgress 0
          (setFieldValue field v (setFileInfo fi (setDragging b st))))).
Proof.
  intros (Hlive & _ & _). split; [|simpl; split; [lia|reflexivity]].
  simpl. apply map_Forall_insert_2.
  - split; [lia|]. split; [reflexivity|lia].
  - intros t p Htp. destruct (Hlive t p Htp) as (Hp & Hmod & Hlt).
    split; [exact Hp|]. split; [exact Hmod|lia].
Qed.

Lemma steady_intervalCallback (i : nat) (st : State) :
  steady st -> steady (intervalCallback i st).
Proof.
  intros (Hlive & Hshown & Hten). unfold intervalCallback.
  destruct (intervals st !! i) as [p|] eqn:Hi;
    [|exact (conj Hlive (conj Hshown Hten))].
  destruct (Hlive i p Hi) as (Hp & Hmod & Hlt).
  assert (Hmod' : (p + 10) mod 10 = 0).
  { replace (p + 10) with (p + 1 * 10) by lia.
    rewrite Z.mod_add by lia. exact Hmod. }
  assert (Hp90 : p <= 90).
  { pose proof (Z.div_mod p 10 ltac:(lia)) as Hdiv. lia. }
  destruct (Z.leb_spec 100 (p + 10)) as [Hge|Hlt'];
    (split; [|simpl; split; [lia|exact Hmod']]); simpl.
  - intros t q Hq. apply lookup_delete_Some in Hq as [Hne Hq].
    rewrite lookup_insert_ne in Hq by exact Hne. exact (Hlive t q Hq).
  - apply map_Forall_insert_2; [|exact Hlive].
    split; [lia|]. split; [exact Hmod'|exact Hlt].
Qed.

Lemma steady_step (ev : event) (st : State) :
  steady st -> steady (step props ev st).
Proof.
  intros H. destruct ev as [files| |files| | |i]; simpl.
  - destruct files as [[|f rest]|]; try exact H.
    exact (steady_select (name props) (VFile f) (Some (fileInfoOf f))
             (dragging st) st H).
  - exact H.
  - destruct files as [[|f rest]|]; try exact H.
    exact (steady_select (name props) (VFile f) (Some (fileInfoOf f))
             false st H).
  - rewrite handleDragOver_sets. exact H.
  - exact H.
  - apply steady_intervalCallback, H.
Qed.

Lemma steady_run (evs : list event) (st : State) :
  steady st -> steady (run props evs st).
Proof.
  revert st. induction evs as [|ev evs IH]; intros st H; [exact H|].
  apply IH, steady_step, H.
Qed.

(** X4: in a component that was mounted afresh, whatever the events and
    however the timers of several selections interleave, the shown progress
    (the width of the bar in percent) is one of 0, 10, ..., 100, and every
    live timer holds one of 0, 10, ..., 90. *)
Theorem progress_in_range (vals : gmap string value) (evs : list event) :
  let st := run props evs (mount vals) in
  0 <= uploadProgress st <= 100
  /\ uploadProgress st mod 10 = 0
  /\ map_Forall (fun _ p => 0 <= p <= 90 /\ p mod 10 = 0) (intervals st).
Proof.
  intros st. destruct (steady_run evs _ (steady_mount vals))
    as (Hlive & Hshown & Hten).
  split; [exact Hshown|]. split; [exact Hten|].
  intros t p Htp. destruct (Hlive t p Htp) as (Hp & Hmod & _).
  split; [|exact Hmod].
  pose proof (Z.div_mod p 10 ltac:(lia)) as Hdiv. lia.
Qed.

(** X5: in a component that was mounted afresh, a live timer that holds [p]
    still holds [p] plus ten times the number of its firings while that
    stays below 100, whatever other events come between, and is cleared
    from then on: it fires [(100 - p) / 10] more times and never again. *)
Theorem timer_countdown (vals : gmap string value) (evs evs' : list event)
    (t : nat) (p : Z) :
  let st := run props evs (mount vals) in
  intervals st !! t = Some p ->
  intervals (run props evs' st) !! t
  = if Z.of_nat (ticksOf t evs') <? (100 - p) / 10
    then Some (p + 10 * Z.of_nat (ticksOf t evs'))
    else None.
Proof.
  intros st Htp.
  destruct (steady_run evs _ (steady_mount vals)) as (Hlive & _ & _).
  destruct (Hlive t p Htp) as (Hp & Hmod & Hlt).
  rewrite (run_interval props evs' t st Hlt). fold st. rewrite Htp.
  pose proof (Z.div_mod p 10 ltac:(lia)) as Hdiv. rewrite Hmod in Hdiv.
  set (j := Z.to_nat (p / 10)).
  assert (Hpj : p = 10 * Z.of_nat j) by (subst j; lia).
  rewrite Hpj at 1. rewrite iter_advance by (subst j; lia).
  replace ((100 - p) / 10) with (10 - Z.of_nat j).
  2:{ rewrite Hpj. replace (100 - 10 * Z.of_nat j)
        with ((10 - Z.of_nat j) * 10) by lia.
      symmetry. apply Z.div_mul. lia. }
  destruct (Nat.ltb_spec (j + ticksOf t evs') 10) as [Hlt'|Hge];
    destruct (Z.ltb_spec (Z.of_nat (ticksOf t evs')) (10 - Z.of_nat j));
    try lia; [|reflexivity].
  f_equal. lia.
Qed.

End Animation.

(** A timer started by choosing "manifest.csv" holds 30 after three
    firings. *)
Lemma timer_countdown_witness :
  intervals chosen !! 0%nat = Some 0
  /\ intervals (run manifestProps (repeat (Tick 0%nat) 3) chosen) !! 0%nat
     = Some 30.
Proof.
  split; [reflexivity|].
  exact (timer_countdown manifestProps FormSchemas.initialValues
           [Change (Some [manifestCsv])] (repeat (Tick 0%nat) 3) 0%nat 0
           eq_refl).
Defined.

(** ** Overlapping animations *)

(** X6: a selection does not stop the animation of an earlier one.  A timer
    that is live with [p] stays live with [p] across the selection, which
    shows 0 and starts its own timer at 0; the next firing of the older
    timer shows [p + 10], and the display then shows whichever of the two
    timers fired last. *)
Theorem selection_keeps_older_timer (props : FileInputProps) (src : source)
    (f : File) (rest : list File) (st : State) (t : nat) (p : Z) :
  intervals st !! t = Some p ->
  (t < nextInterval st)%nat ->
  let st' := step props (selection src f rest) st in
  let t' := nextInterval st in
  intervals st' !! t = Some p
  /\ intervals st' !! t' = Some 0
  /\ uploadProgress st' = 0
  /\ uploadProgress (run props [Tick t] st') = p + 10
  /\ uploadProgress (run props [Tick t; Tick t'] st') = 10
  /\ uploadProgress (run props [Tick t'; Tick t] st') = p + 10.
Proof.
  intros Htp Hlt st' t'.
  destruct (selection_starts props src f rest st) as (Hzero & Hnew & _).
  fold st' in Hzero, Hnew. fold t' in Hnew.
  assert (Hold : intervals st' !! t = Some p).
  { destruct (step_interval props (selection src f rest) t st Hlt) as [H _].
    fold st' in H. rewrite H, Htp. destruct src; reflexivity. }
  assert (Hne : t <> t') by (subst t'; lia).
  split; [exact Hold|]. split; [exact Hnew|]. split; [exact Hzero|].
  cbn [run step]. rewrite !intervalCallback_shown.
  rewrite (intervalCallback_other t t') by exact Hne.
  rewrite (intervalCallback_other t' t) by (intros E; apply Hne; auto).
  rewrite Hold, Hnew. repeat split.
Qed.

(** While "manifest.csv" is at 50, "other.csv" is chosen: the older timer
    then shows 60 and the new one 10. *)
Lemma selection_keeps_older_timer_witness :
  let st' := step manifestProps (selection Browse otherCsv []) midway in
  intervals midway !! 0%nat = Some 50
  /\ uploadProgress (run manifestProps [Tick 0%nat] st') = 60
  /\ uploadProgress (run manifestProps [Tick 0%nat; Tick 1%nat] st') = 10.
Proof.
  assert (Hlive : intervals midway !! 0%nat = Some 50) by reflexivity.
  assert (Hlt : (0 < nextInterval midway)%nat) by (vm_compute; lia).
  destruct (selection_keeps_older_timer manifestProps Browse otherCsv []
              midway 0%nat 50 Hlive Hlt) as (_ & _ & _ & H1 & H2 & _).
  split; [exact Hlive|]. split; [exact H1|exact H2].
Defined.

(** ** One timer per selection *)

Lemma step_nextInterval (props : FileInputProps) (ev : event) (st : State) :
  nextInterval (step props ev st)
  = (nextInterval st + length (omap selectedBy [ev]))%nat.
Proof.
  destruct ev as [files| |files| | |i]; cbn [step].
  - destruct files as [[|f rest]|]; simpl; lia.
  - unfold handleClick. simpl. lia.
  - destruct files as [[|f rest]|]; simpl; lia.
  - rewrite handleDragOver_sets. simpl. lia.
  - simpl. lia.
  - rewrite intervalCallback_next. simpl. lia.
Qed.

Lemma run_nextInterval (props : FileInputProps) (evs : list event)
    (st : State) :
  nextInterval (run props evs st)
  = (nextInterval st + length (omap selectedBy evs))%nat.
Proof.
  revert st. induction evs as [|ev evs IH]; intros st; simpl run; [simpl; lia|].
  rewrite IH, step_nextInterval.
  change (ev :: evs) with (([ev] ++ evs)%list).
  rewrite omap_app, length_app. lia.
Qed.

(** X9: [simulateUpload] is called once for each event that supplies a file
    and by no other event: the number of timers ever started is the number
    of such events, and in a component mounted afresh no more timers are
    live than files were selected. *)
Theorem one_timer_per_selection (props : FileInputProps) (evs : list event)
    (st : State) (vals : gmap string value) :
  nextInterval (run props evs st)
  = (nextInterval st + length (omap selectedBy evs))%nat
  /\ (size (intervals (run props evs (mount vals)))
      <= length (omap selectedBy evs))%nat.
Proof.
  split; [apply run_nextInterval|].
  destruct (steady_run props evs _ (steady_mount vals)) as (Hlive & _).
  rewrite run_nextInterval in Hlive. simpl in Hlive.
  set (m := intervals (run props evs (mount vals))) in *.
  set (n := length (omap selectedBy evs)) in *.
  assert (Hsub : dom m ⊆ (set_seq 0 n : gset nat)).
  { intros t Ht. apply elem_of_dom in Ht as [p Hp].
    destruct (Hlive t p Hp) as (_ & _ & Hlt).
    apply elem_of_set_seq. lia. }
  apply subseteq_size in Hsub.
  rewrite size_dom, size_set_seq in Hsub. exact Hsub.
Qed.

(** ** The size in KB at its edges *)

(** X8: the shown size is 0 KB exactly for files below 512 bytes (an empty
    file included); in general it is the number of whole KB, plus one when
    the remaining bytes are 512 or more; and a larger file is never shown
    with a smaller size. *)
Theorem displayedKB_threshold (s d : N) :
  (displayedKB s = 0 <-> (s < 512)%N)
  /\ displayedKB s
     = Z.of_N (s / 1024) + (if (s mod 1024 <? 512)%N then 0 else 1)
  /\ displayedKB s <= displayedKB (s + d).
Proof.
  rewrite !displayedKB_div.
  pose proof (N2Z.is_nonneg s) as Hs. pose proof (N2Z.is_nonneg d) as Hd.
  split; [|split].
  - rewrite Z.div_small_iff by lia. lia.
  - rewrite N2Z.inj_div.
    pose proof (N.mod_lt s 1024 ltac:(lia)) as Hr.
    pose proof (N.div_mod s 1024 ltac:(lia)) as Hdm.
    assert (Hz : Z.of_N s = Z.of_N (s / 1024) * 1024 + Z.of_N (s mod 1024)) by lia.
    rewrite N2Z.inj_div in Hz. rewrite Hz at 1.
    rewrite <- Z.add_assoc, Z.div_add_l by lia. f_equal.
    pose proof (N2Z.is_nonneg (s mod 1024)) as Hn.
    apply N2Z.inj_lt in Hr. change (Z.of_N 1024) with 1024 in Hr.
    clear Hz Hdm.
    destruct (N.ltb_spec (s mod 1024) 512) as [Hlo|Hhi].
    + apply N2Z.inj_lt in Hlo. change (Z.of_N 512) with 512 in Hlo.
      apply Z.div_small. lia.
    + apply N2Z.inj_le in Hhi. change (Z.of_N 512) with 512 in Hhi.
      replace (Z.of_N (s mod 1024) + 512)
        with (1 * 1024 + (Z.of_N (s mod 1024) - 512)) by lia.
      rewrite Z.div_add_l by lia. rewrite Z.div_small by lia. reflexivity.
  - rewrite N2Z.inj_add. apply Z.div_le_mono; lia.
Qed.

(** * The schema against the initial values *)

(** X10: every field that has a rule in [validationSchema] is declared in
    [initialValues] and its rule is a required one; the declared fields
    without any rule are exactly the four testing centers. *)
Theorem schema_fields_declared :
  dom FormSchemas.validationSchema ⊆ dom FormSchemas.initialValues
  /\ map_Forall (fun _ rule => is_Some (Yup.requiredMessage rule))
       FormSchemas.validationSchema
  /\ dom FormSchemas.initialValues ∖ dom FormSchemas.validationSchema
     = ({[ "testingCenter1"; "testingCenter2";
           "testingCenter3"; "testingCenter4" ]} : gset string).
Proof. repeat split; compute_done. Qed.

(** * When every animation has ended *)

Section Idle.

Variable props : FileInputProps.

(** The bar of a component without live timer: still empty when no timer
    was ever started, full otherwise. *)
Lemma idle_step (ev : event) (st : State) :
  steady st ->
  (intervals st = ∅ ->
   uploadProgress st = if (nextInterval st =? 0)%nat then 0 else 100) ->
  intervals (step props ev st) = ∅ ->
  uploadProgress (step props ev st)
  = if (nextInterval (step props ev st) =? 0)%nat then 0 else 100.
Proof.
  intros (Hlive & _ & _) Hidle.
  destruct ev as [files| |files| | |i]; cbn [step].
  - destruct files as [[|f rest]|]; simpl; try exact Hidle.
    intros Hnone. exfalso. exact (insert_non_empty _ _ _ Hnone).
  - exact Hidle.
  - destruct files as [[|f rest]|]; simpl; try exact Hidle.
    intros Hnone. exfalso. exact (insert_non_empty _ _ _ Hnone).
  - rewrite handleDragOver_sets. exact Hidle.
  - exact Hidle.
  - unfold intervalCallback.
    destruct (intervals st !! i) as [p|] eqn:Hi; [|exact Hidle].
    destruct (Hlive i p Hi) as (Hp & Hmod & Hlt).
    destruct (Z.leb_spec 100 (p + 10)) as [Hge|Hlt']; simpl.
    + intros _. destruct (Nat.eqb_spec (nextInterval st) 0) as [E|_]; [lia|].
      pose proof (Z.div_mod p 10 ltac:(lia)) as Hdiv. lia.
    + intros Hnone. exfalso. exact (insert_non_empty _ _ _ Hnone).
Qed.

Lemma idle_run (evs : list event) (st : State) :
  steady st ->
  (intervals st = ∅ ->
   uploadProgress st = if (nextInterval st =? 0)%nat then 0 else 100) ->
  intervals (run props evs st) = ∅ ->
  uploadProgress (run props evs st)
  = if (nextInterval (run props evs st) =? 0)%nat then 0 else 100.
Proof.
  revert st. induction evs as [|ev evs IH]; intros st Hst Hidle; [exact Hidle|].
  cbn [run]. apply IH; [apply steady_step, Hst|].
  apply idle_step; assumption.
Qed.

Lemma lastOf_none {A : Type} (pick : event -> option A) (evs : list event) :
  length (omap pick evs) = 0%nat -> lastOf pick evs = None.
Proof.
  induction evs as [|ev evs IH]; [reflexivity|]. cbn [omap lastOf list_omap].
  destruct (pick ev) as [a|]; simpl; [discriminate|].
  intros H. rewrite (IH H). reflexivity.
Qed.

Lemma lastOf_some {A : Type} (pick : event -> option A) (evs : list event) :
  length (omap pick evs) <> 0%nat -> is_Some (lastOf pick evs).
Proof.
  induction evs as [|ev evs IH]; [intros H; exfalso; apply H; reflexivity|].
  cbn [omap lastOf list_omap]. destruct (pick ev) as [a|]; simpl.
  - intros _. destruct (lastOf pick evs); eexists; reflexivity.
  - intros H. destruct (IH H) as [a ->]. eexists; reflexivity.
Qed.

(** X11: in a component that was mounted afresh, whenever no timer is live
    the bar is full (100) if a file was ever selected and empty (0) if none
    was: an animation, also one interleaved with others, never ends on a
    partly filled bar. *)
Theorem idle_bar_full (vals : gmap string value) (evs : list event) :
  let st := run props evs (mount vals) in
  intervals st = ∅ ->
  uploadProgress st
  = match lastOf selectedBy evs with Some _ => 100 | None => 0 end.
Proof.
  intros st Hnone.
  assert (Hidle : uploadProgress st
                  = if (nextInterval st =? 0)%nat then 0 else 100).
  { apply idle_run; [apply steady_mount|reflexivity|exact Hnone]. }
  rewrite Hidle. unfold st. rewrite run_nextInterval. simpl.
  destruct (Nat.eqb_spec (length (omap selectedBy evs)) 0) as [E|E].
  - rewrite (lastOf_none _ _ E). reflexivity.
  - destruct (lastOf_some _ _ E) as [f ->]. reflexivity.
Qed.

End Idle.

(** After "manifest.csv" was chosen and its timer fired ten times, no timer
    is live and the bar is full. *)
Lemma idle_bar_full_witness :
  let evs := Change (Some [manifestCsv]) :: repeat (Tick 0%nat) 10 in
  intervals (run manifestProps evs fresh) = ∅
  /\ uploadProgress (run manifestProps evs fresh) = 100.
Proof.
  intros evs.
  assert (Hnone : intervals (run manifestProps evs fresh) = ∅) by reflexivity.
  split; [exact Hnone|].
  exact (idle_bar_full manifestProps FormSchemas.initialValues evs Hnone).
Defined.
